(** * jupyterlab/__init__.py: the server-extension bootstrapper

    A shallow embedding of the module body of [jupyterlab/__init__.py] and of
    the one function it defines, [_jupyter_server_extension_paths].

    The module body is a straight line of statements: six [from ... import]
    statements, three calls of setters that live in the companion package
    [jupyterlab_server], and one [def].  Each of the first nine can raise, and
    an exception raised by a statement ends the execution of the body while
    everything done before it stays done.  The body is therefore written in a
    monad that threads the process-wide state of the collaborators and keeps
    that state when an exception is raised. *)

From stdpp Require Import gmap strings list fin_maps.

Set Default Proof Using "Type".

(** ** Exceptions, outcomes, and the monad of statements *)

(** A Python exception, as far as this module can tell them apart: the name
    of its class and its message. *)
Record exn : Type := PyExc { exc_type : string; exc_msg : string }.

(** What executing a statement or a call yields. *)
Inductive outcome (A : Type) : Type :=
| Ok (a : A)
| Raise (e : exn).
Arguments Ok {A} a.
Arguments Raise {A} e.

Definition is_raise {A : Type} (o : outcome A) : Prop :=
  match o with Raise _ => True | Ok _ => False end.

(** A computation over a state [W]: it yields an outcome and the state it
    leaves behind.  The state is returned also when an exception is raised:
    Python undoes nothing when it unwinds. *)
Definition M (W A : Type) : Type := W → outcome A * W.

Definition ret {W A : Type} (a : A) : M W A := λ w, (Ok a, w).

Definition bind {W A B : Type} (m : M W A) (k : A → M W B) : M W B :=
  λ w, match m w with
       | (Ok a, w') => k a w'
       | (Raise e, w') => (Raise e, w')
       end.

(** An import statement, seen from the importing module: the object it binds,
    or the exception it raises.  Loading a module that is not loaded yet is
    the work of the import system and of that module; the statement itself
    registers nothing with the collaborators, so it leaves the state as it
    is. *)
Definition from_import {W A : Type} (o : outcome A) : M W A := λ w, (o, w).

#[global] Instance M_ret (W : Type) : MRet (M W) := @ret W.
#[global] Instance M_bind (W : Type) : MBind (M W) := λ A B k m, bind m k.

#[global] Instance outcome_fmap : FMap outcome :=
  λ A B f o, match o with Ok a => Ok (f a) | Raise e => Raise e end.

(** ** The module *)

Module jupyterlab.
Section Bootstrapper.

(** [W] is the process-wide state owned by the collaborators in
    [jupyterlab_server]; [Obj] is the type of the Python objects the module
    passes on without looking inside (the version, the loader, the two
    paths). *)
Context (W Obj : Type).

(** A setter of a collaborator: a callable of one argument.  It may raise,
    and may have changed the state before it does. *)
Definition Setter : Type := Obj → M W unit.

(** The record the host reads: a Python dict with string keys. *)
Definition descriptor : Type := gmap string string.

(** The outcome of each of the six import statements, in source order.
      from ._version import __version__
      from jupyterlab_server.extension import load_jupyter_server_extension
      from jupyterlab_server.commands import set_yarn_path, set_here
      from jupyterlab_server.coreconfig import set_here as set_config_here
      from .jlpmapp import HERE
      from .jlpmapp import YARN_PATH *)
Record Imports : Type := {
  import_version : outcome Obj;
  import_extension : outcome Obj;
  import_commands : outcome (Setter * Setter);
  import_coreconfig : outcome Setter;
  import_HERE : outcome Obj;
  import_YARN_PATH : outcome Obj;
}.

(** def _jupyter_server_extension_paths():
        return [{'module': 'jupyterlab'}]
    The list display is evaluated at each call. *)
Definition _jupyter_server_extension_paths : M W (list descriptor) :=
  mret [ {[ "module" := "jupyterlab" ]} ].

(** The names bound in the module once its body has run to the end;
    [extension_paths] is the binding made by the [def]. *)
Record Namespace : Type := {
  __version__ : Obj;
  load_jupyter_server_extension : Obj;
  set_yarn_path : Setter;
  set_here : Setter;
  set_config_here : Setter;
  HERE : Obj;
  YARN_PATH : Obj;
  extension_paths : M W (list descriptor);
}.

(** The module body.  A name bound by an import is a variable bound here;
    the namespace is handed to the importer only when the last statement
    has run. *)
Definition module_init (env : Imports) : M W Namespace :=
  __version__ ← from_import (import_version env);
  load_jupyter_server_extension ← from_import (import_extension env);
  '(set_yarn_path, set_here) ← from_import (import_commands env);
  set_config_here ← from_import (import_coreconfig env);
  HERE ← from_import (import_HERE env);
  YARN_PATH ← from_import (import_YARN_PATH env);
  set_here HERE;;
  set_yarn_path YARN_PATH;;
  set_config_here HERE;;
  mret {| __version__ := __version__;
          load_jupyter_server_extension := load_jupyter_server_extension;
          set_yarn_path := set_yarn_path;
          set_here := set_here;
          set_config_here := set_config_here;
          HERE := HERE;
          YARN_PATH := YARN_PATH;
          extension_paths := _jupyter_server_extension_paths |}.

(** The host calling the descriptor query [n] times in a row, keeping every
    answer. *)
Fixpoint query_times (n : nat) : M W (list (list descriptor)) :=
  match n with
  | 0 => mret []
  | S n => d ← _jupyter_server_extension_paths;
           ds ← query_times n;
           mret (d :: ds)
  end.

(** *** What the collaborators hold

    The three values a host can read back from the collaborators:
    [jupyterlab_server.commands.HERE], [jupyterlab_server.commands.YARN_PATH]
    and [jupyterlab_server.coreconfig.HERE]. *)
Record Registry : Type := {
  registered_here : W → option Obj;
  registered_yarn_path : W → option Obj;
  registered_config_here : W → option Obj;
}.

Definition registered (reg : Registry) (w : W)
  : option Obj * option Obj * option Obj :=
  (registered_here reg w, registered_yarn_path reg w,
   registered_config_here reg w).

(** A setter that returns has stored its argument where [get] reads. *)
Definition writes (s : Setter) (get : W → option Obj) : Prop :=
  ∀ v w w', s v w = (Ok (), w') → get w' = Some v.

(** A setter that returns has left what [get] reads as it was. *)
Definition keeps (s : Setter) (get : W → option Obj) : Prop :=
  ∀ v w w', s v w = (Ok (), w') → get w' = get w.

(** A setter leaves an observation of the state alone whatever its
    outcome. *)
Definition preserves {X : Type} (obs : W → X) (s : Setter) : Prop :=
  ∀ v w r w', s v w = (r, w') → obs w' = obs w.

(** The contract of the three setters bound in a namespace, as far as the
    module body relies on it: each stores into its own slot, and a setter
    called later keeps the slots written before it. *)
Record honours (ns : Namespace) (reg : Registry) : Prop := {
  set_here_writes : writes (set_here ns) (registered_here reg);
  set_yarn_path_writes :
    writes (set_yarn_path ns) (registered_yarn_path reg);
  set_yarn_path_keeps_here :
    keeps (set_yarn_path ns) (registered_here reg);
  set_config_here_writes :
    writes (set_config_here ns) (registered_config_here reg);
  set_config_here_keeps_here :
    keeps (set_config_here ns) (registered_here reg);
  set_config_here_keeps_yarn :
    keeps (set_config_here ns) (registered_yarn_path reg);
}.

(** The setters an import environment can bind. *)
Definition setters_of (env : Imports) : list Setter :=
  match import_commands env with
  | Ok (set_yarn_path, set_here) => [set_yarn_path; set_here]
  | Raise _ => []
  end ++
  match import_coreconfig env with
  | Ok set_config_here => [set_config_here]
  | Raise _ => []
  end.

(** *** A record of the boundary calls

    To speak of which setters were called, with what, and in which order,
    the state is paired with a history and every setter is wrapped so that
    it appends its own call before it runs. *)
Inductive call : Type :=
| SetHere (v : Obj)
| SetYarnPath (v : Obj)
| SetConfigHere (v : Obj).

Definition is_set_here (c : call) : bool :=
  match c with SetHere _ => true | _ => false end.
Definition is_set_yarn_path (c : call) : bool :=
  match c with SetYarnPath _ => true | _ => false end.
Definition is_set_config_here (c : call) : bool :=
  match c with SetConfigHere _ => true | _ => false end.

End Bootstrapper.

Arguments import_version {W Obj} _.
Arguments import_extension {W Obj} _.
Arguments import_commands {W Obj} _.
Arguments import_coreconfig {W Obj} _.
Arguments import_HERE {W Obj} _.
Arguments import_YARN_PATH {W Obj} _.
Arguments _jupyter_server_extension_paths {W}.
Arguments __version__ {W Obj} _.
Arguments load_jupyter_server_extension {W Obj} _.
Arguments set_yarn_path {W Obj} _.
Arguments set_here {W Obj} _.
Arguments set_config_here {W Obj} _.
Arguments HERE {W Obj} _.
Arguments YARN_PATH {W Obj} _.
Arguments extension_paths {W Obj} _.
Arguments module_init {W Obj} env.
Arguments query_times {W} n.
Arguments registered_here {W Obj} _.
Arguments registered_yarn_path {W Obj} _.
Arguments registered_config_here {W Obj} _.
Arguments registered {W Obj} reg w.
Arguments writes {W Obj} s get.
Arguments keeps {W Obj} s get.
Arguments preserves {W Obj X} obs s.
Arguments honours {W Obj} ns reg.
Arguments setters_of {W Obj} env.
Arguments SetHere {Obj} v.
Arguments SetYarnPath {Obj} v.
Arguments SetConfigHere {Obj} v.
Arguments is_set_here {Obj} c.
Arguments is_set_yarn_path {Obj} c.
Arguments is_set_config_here {Obj} c.

Section Recording.
Context {W Obj : Type}.

Definition recorded (c : Obj → call Obj) (s : Setter W Obj)
  : Setter (list (call Obj) * W) Obj :=
  λ v lw, let '(r, w') := s v lw.2 in (r, (lw.1 ++ [c v], w')).

Definition recording (env : Imports W Obj)
  : Imports (list (call Obj) * W) Obj :=
  {| import_version := import_version env;
     import_extension := import_extension env;
     import_commands :=
       (λ p : Setter W Obj * Setter W Obj,
          (recorded SetYarnPath p.1, recorded SetHere p.2))
       <$> import_commands env;
     import_coreconfig := recorded SetConfigHere <$> import_coreconfig env;
     import_HERE := import_HERE env;
     import_YARN_PATH := import_YARN_PATH env |}.

(** The calls the body makes when nothing raises. *)
Definition boundary_calls (env : Imports W Obj) : list (call Obj) :=
  match import_HERE env, import_YARN_PATH env with
  | Ok HERE, Ok YARN_PATH =>
      [SetHere HERE; SetYarnPath YARN_PATH; SetConfigHere HERE]
  | _, _ => []
  end.
End Recording.

Section ImportOrder.
Context {W Obj : Type}.

(** The exception of the first import statement that raises, going through
    the six statements in source order; [None] when all of them resolve. *)
Definition first_import_failure (env : Imports W Obj) : option exn :=
  match import_version env with
  | Raise e => Some e
  | Ok _ =>
  match import_extension env with
  | Raise e => Some e
  | Ok _ =>
  match import_commands env with
  | Raise e => Some e
  | Ok _ =>
  match import_coreconfig env with
  | Raise e => Some e
  | Ok _ =>
  match import_HERE env with
  | Raise e => Some e
  | Ok _ =>
  match import_YARN_PATH env with
  | Raise e => Some e
  | Ok _ => None
  end end end end end end.
End ImportOrder.

End jupyterlab.

(** ** The collaborators *)

(** Modelled from the spec: the companion package [jupyterlab_server] is not
    among the sources.  The spec describes its configuration collaborators as
    simple in-process mutable globals, each written by a setter that copies
    its argument; the three globals are the registered base path of the
    general extension support, the registered package-manager path, and the
    registered base path of the core config.  [elsewhere] stands for every
    other global of the package. *)
Module jupyterlab_server.

Inductive pyobj : Type :=
| Str (s : string)
| Function (qualname : string).

Record world : Type := World {
  commands_HERE : option pyobj;
  commands_YARN_PATH : option pyobj;
  coreconfig_HERE : option pyobj;
  elsewhere : gmap string pyobj;
}.

Module commands.
Definition set_here (here : pyobj) : M world unit :=
  λ w, (Ok (), World (Some here) (commands_YARN_PATH w)
                     (coreconfig_HERE w) (elsewhere w)).
Definition set_yarn_path (path : pyobj) : M world unit :=
  λ w, (Ok (), World (commands_HERE w) (Some path)
                     (coreconfig_HERE w) (elsewhere w)).
End commands.

Module coreconfig.
Definition set_here (here : pyobj) : M world unit :=
  λ w, (Ok (), World (commands_HERE w) (commands_YARN_PATH w)
                     (Some here) (elsewhere w)).
End coreconfig.

Module extension.
Definition load_jupyter_server_extension : pyobj :=
  Function "jupyterlab_server.extension.load_jupyter_server_extension".
End extension.

Definition registry : jupyterlab.Registry world pyobj :=
  {| jupyterlab.registered_here := commands_HERE;
     jupyterlab.registered_yarn_path := commands_YARN_PATH;
     jupyterlab.registered_config_here := coreconfig_HERE |}.

(** The package just loaded: nothing registered yet. *)
Definition unconfigured : world := World None None None ∅.

End jupyterlab_server.

(** ** Import environments used as examples *)

Module scenario.
Import jupyterlab jupyterlab_server.

(** Every import resolves; [jlpmapp] has computed [here] and [yarn]. *)
Definition resolved (ver here yarn : string) : Imports world pyobj :=
  {| import_version := Ok (Str ver);
     import_extension := Ok extension.load_jupyter_server_extension;
     import_commands := Ok (commands.set_yarn_path, commands.set_here);
     import_coreconfig := Ok coreconfig.set_here;
     import_HERE := Ok (Str here);
     import_YARN_PATH := Ok (Str yarn) |}.

(** The example of the spec. *)
Definition installed : Imports world pyobj :=
  resolved "1.0.0a1" "/opt/app/share/pkg" "/opt/app/bin/pkgmgr".

(** What the importer gets in that example, and the state it finds. *)
Definition installed_namespace : Namespace world pyobj :=
  {| __version__ := Str "1.0.0a1";
     load_jupyter_server_extension := extension.load_jupyter_server_extension;
     set_yarn_path := commands.set_yarn_path;
     set_here := commands.set_here;
     set_config_here := coreconfig.set_here;
     HERE := Str "/opt/app/share/pkg";
     YARN_PATH := Str "/opt/app/bin/pkgmgr";
     extension_paths := _jupyter_server_extension_paths |}.

Definition configured : world :=
  World (Some (Str "/opt/app/share/pkg")) (Some (Str "/opt/app/bin/pkgmgr"))
        (Some (Str "/opt/app/share/pkg")) ∅.

(** The same, with every boundary call recorded. *)
Definition installed_calls : list (call pyobj) :=
  [SetHere (Str "/opt/app/share/pkg");
   SetYarnPath (Str "/opt/app/bin/pkgmgr");
   SetConfigHere (Str "/opt/app/share/pkg")].

Definition installed_recorded_namespace
  : Namespace (list (call pyobj) * world) pyobj :=
  {| __version__ := Str "1.0.0a1";
     load_jupyter_server_extension := extension.load_jupyter_server_extension;
     set_yarn_path := recorded SetYarnPath commands.set_yarn_path;
     set_here := recorded SetHere commands.set_here;
     set_config_here := recorded SetConfigHere coreconfig.set_here;
     HERE := Str "/opt/app/share/pkg";
     YARN_PATH := Str "/opt/app/bin/pkgmgr";
     extension_paths := _jupyter_server_extension_paths |}.

(** The same package moved to another prefix. *)
Definition relocated : Imports world pyobj :=
  resolved "1.0.0a1" "/usr/share/pkg" "/usr/bin/pkgmgr".

(** [jlpmapp] raises while it is imported. *)
Definition jlpmapp_fails : Imports world pyobj :=
  {| import_version := Ok (Str "1.0.0a1");
     import_extension := Ok extension.load_jupyter_server_extension;
     import_commands := Ok (commands.set_yarn_path, commands.set_here);
     import_coreconfig := Ok coreconfig.set_here;
     import_HERE := Raise (PyExc "OSError" "path resolution failed");
     import_YARN_PATH := Raise (PyExc "OSError" "path resolution failed") |}.

(** A core-config setter that raises without storing anything. *)
Definition refusing_set_here : Setter world pyobj :=
  λ _ w, (Raise (PyExc "ValueError" "rejected"), w).

(** Where a run stopped by that setter leaves the collaborators. *)
Definition half_configured : world :=
  World (Some (Str "/opt/app/share/pkg")) (Some (Str "/opt/app/bin/pkgmgr"))
        None ∅.

Definition core_config_refuses : Imports world pyobj :=
  {| import_version := Ok (Str "1.0.0a1");
     import_extension := Ok extension.load_jupyter_server_extension;
     import_commands := Ok (commands.set_yarn_path, commands.set_here);
     import_coreconfig := Ok refusing_set_here;
     import_HERE := Ok (Str "/opt/app/share/pkg");
     import_YARN_PATH := Ok (Str "/opt/app/bin/pkgmgr") |}.

(** [_version] is missing and [jlpmapp] raises as well. *)
Definition version_and_jlpmapp_fail : Imports world pyobj :=
  {| import_version :=
       Raise (PyExc "ImportError" "cannot import name __version__");
     import_extension := Ok extension.load_jupyter_server_extension;
     import_commands := Ok (commands.set_yarn_path, commands.set_here);
     import_coreconfig := Ok coreconfig.set_here;
     import_HERE := Raise (PyExc "OSError" "path resolution failed");
     import_YARN_PATH := Raise (PyExc "OSError" "path resolution failed") |}.

(** A package-manager setter that raises without storing anything, and where
    a run stopped by it leaves the collaborators. *)
Definition refusing_set_yarn_path : Setter world pyobj :=
  λ _ w, (Raise (PyExc "ValueError" "not an executable"), w).

Definition here_configured : world :=
  World (Some (Str "/opt/app/share/pkg")) None None ∅.

Definition yarn_path_refuses : Imports world pyobj :=
  {| import_version := Ok (Str "1.0.0a1");
     import_extension := Ok extension.load_jupyter_server_extension;
     import_commands := Ok (refusing_set_yarn_path, commands.set_here);
     import_coreconfig := Ok coreconfig.set_here;
     import_HERE := Ok (Str "/opt/app/share/pkg");
     import_YARN_PATH := Ok (Str "/opt/app/bin/pkgmgr") |}.

End scenario.

(** ** Properties *)

Module facts.
Import jupyterlab.

(** Unfold the statement monad down to pairs and matches. *)
Ltac unfold_M :=
  unfold module_init, _jupyter_server_extension_paths, from_import,
    mbind, M_bind, bind, mret, M_ret, ret, fmap, outcome_fmap in *;
  simpl in *.

Section Generic.
Context {W Obj : Type}.
Implicit Types (env : Imports W Obj) (ns : Namespace W Obj) (w : W).

(** The query returns the literal and leaves the state alone. *)
Lemma query_run w :
  _jupyter_server_extension_paths w
  = (Ok [ ({[ "module" := "jupyterlab" ]} : descriptor) ], w).
Proof. reflexivity. Qed.

(** A run of the body that returns went through every statement. *)
Lemma module_init_Ok_inv env w ns w' :
  module_init env w = (Ok ns, w') →
  import_version env = Ok (__version__ ns) ∧
  import_extension env = Ok (load_jupyter_server_extension ns) ∧
  import_commands env = Ok (set_yarn_path ns, set_here ns) ∧
  import_coreconfig env = Ok (set_config_here ns) ∧
  import_HERE env = Ok (HERE ns) ∧
  import_YARN_PATH env = Ok (YARN_PATH ns) ∧
  extension_paths ns = _jupyter_server_extension_paths ∧
  ∃ w1 w2,
    set_here ns (HERE ns) w = (Ok (), w1) ∧
    set_yarn_path ns (YARN_PATH ns) w1 = (Ok (), w2) ∧
    set_config_here ns (HERE ns) w2 = (Ok (), w').
Proof.
  destruct env as [v l c cc h y]; unfold_M.
  destruct v as [v|]; [|discriminate].
  destruct l as [l|]; [|discriminate].
  destruct c as [[sy sh]|]; [|discriminate].
  destruct cc as [sc|]; [|discriminate].
  destruct h as [h|]; [|discriminate].
  destruct y as [y|]; [|discriminate].
  destruct (sh h w) as [[[]|] w1] eqn:E1; [|discriminate].
  destruct (sy y w1) as [[[]|] w2] eqn:E2; [|discriminate].
  destruct (sc h w2) as [[[]|] w3] eqn:E3; [|discriminate].
  intros [= <- <-]; simpl. repeat split; eauto.
Qed.

(** What a returning run leaves registered, given the setters' contract. *)
Lemma module_init_registers env reg w ns w' :
  module_init env w = (Ok ns, w') →
  honours ns reg →
  registered reg w' = (Some (HERE ns), Some (YARN_PATH ns), Some (HERE ns)).
Proof.
  intros Hrun [Hh Hy Hyh Hc Hch Hcy].
  apply module_init_Ok_inv in Hrun
    as (_ & _ & _ & _ & _ & _ & _ & w1 & w2 & E1 & E2 & E3).
  unfold registered. f_equal; [f_equal|].
  - rewrite (Hch _ _ _ E3), (Hyh _ _ _ E2). exact (Hh _ _ _ E1).
  - rewrite (Hcy _ _ _ E3). exact (Hy _ _ _ E2).
  - exact (Hc _ _ _ E3).
Qed.

(** A run stopped by one of the two [jlpmapp] imports has done nothing. *)
Lemma module_init_unresolved env w :
  is_raise (import_HERE env) ∨ is_raise (import_YARN_PATH env) →
  ∃ e, module_init env w = (Raise e, w).
Proof.
  destruct env as [v l c cc h y]; unfold_M.
  intros Hfail.
  destruct v; [|eauto]. destruct l; [|eauto].
  destruct c as [[sy sh]|]; [|eauto]. destruct cc; [|eauto].
  destruct h; [|eauto]. destruct y; [|eauto].
  destruct Hfail as [[]|[]].
Qed.

(** Repeating the query changes nothing and yields the literal each time. *)
Lemma query_times_run n w :
  query_times n w
  = (Ok (replicate n [ ({[ "module" := "jupyterlab" ]} : descriptor) ]), w).
Proof.
  induction n as [|n IH]; [reflexivity|].
  simpl. unfold mbind, M_bind, bind. rewrite query_run, IH. reflexivity.
Qed.

(** The history only grows, by calls the source makes, in source order. *)
Lemma recording_calls env l w :
  ∃ calls, (module_init (recording env) (l, w)).2.1 = l ++ calls
           ∧ calls `prefix_of` boundary_calls env.
Proof.
  destruct env as [v ld c cc h y]; unfold boundary_calls, recording; unfold_M.
  assert (Hnil : ∀ k : list (call Obj), ∃ calls, l = l ++ calls
                                                 ∧ calls `prefix_of` k).
  { intros k. exists []. split; [by rewrite app_nil_r|apply prefix_nil]. }
  destruct v; [|by apply Hnil]. destruct ld; [|by apply Hnil].
  destruct c as [[sy sh]|]; simpl; [|by apply Hnil].
  destruct cc as [sc|]; simpl; [|by apply Hnil].
  destruct h as [h|]; [|by apply Hnil]. destruct y as [y|]; [|by apply Hnil].
  unfold recorded; simpl.
  destruct (sh h w) as [[[]|] w1]; simpl.
  2:{ exists [SetHere h]. split; [done|]. by eexists. }
  destruct (sy y w1) as [[[]|] w2]; simpl.
  2:{ exists [SetHere h; SetYarnPath y]. rewrite <- app_assoc.
      split; [done|]. by eexists. }
  exists [SetHere h; SetYarnPath y; SetConfigHere h].
  destruct (sc h w2) as [[[]|] w3]; simpl; rewrite <- !app_assoc; done.
Qed.

(** A returning run has made all three calls. *)
Lemma recording_run_Ok env l w l' w'
    (ns : Namespace (list (call Obj) * W) Obj) :
  module_init (recording env) (l, w) = (Ok ns, (l', w')) →
  l' = l ++ boundary_calls env.
Proof.
  destruct env as [v ld c cc h y]; unfold boundary_calls, recording; unfold_M.
  destruct v; [|discriminate]. destruct ld; [|discriminate].
  destruct c as [[sy sh]|]; simpl; [|discriminate].
  destruct cc as [sc|]; simpl; [|discriminate].
  destruct h as [h|]; [|discriminate]. destruct y as [y|]; [|discriminate].
  unfold recorded; simpl.
  destruct (sh h w) as [[[]|] w1]; simpl; [|discriminate].
  destruct (sy y w1) as [[[]|] w2]; simpl; [|discriminate].
  destruct (sc h w2) as [[[]|] w3]; simpl; [|discriminate].
  intros [= _ <- _]. by rewrite <- !app_assoc.
Qed.

(** Recording observes and does not interfere: the collaborators end in the
    state the plain run leaves, with the same exception if any. *)
Lemma recording_faithful env l w :
  (module_init (recording env) (l, w)).2.2 = (module_init env w).2 ∧
  (λ _, ()) <$> (module_init (recording env) (l, w)).1
  = (λ _, ()) <$> (module_init env w).1.
Proof.
  destruct env as [v ld c cc h y]; unfold recording; unfold_M.
  destruct v; [|done]. destruct ld; [|done].
  destruct c as [[sy sh]|]; simpl; [|done].
  destruct cc as [sc|]; simpl; [|done].
  destruct h as [h|]; [|done]. destruct y as [y|]; [|done].
  unfold recorded; simpl.
  destruct (sh h w) as [[[]|] w1]; simpl; [|done].
  destruct (sy y w1) as [[[]|] w2]; simpl; [|done].
  destruct (sc h w2) as [[[]|] w3]; simpl; done.
Qed.

(** An observation that no importable setter disturbs survives the body. *)
Lemma module_init_frame {X : Type} (obs : W → X) env w :
  Forall (preserves obs) (setters_of env) →
  obs (module_init env w).2 = obs w.
Proof.
  destruct env as [v ld c cc h y]; unfold setters_of; unfold_M.
  intros Hs.
  destruct v; [|done]. destruct ld; [|done].
  destruct c as [[sy sh]|]; [|done].
  destruct cc as [sc|]; [|done].
  destruct h as [h|]; [|done]. destruct y as [y|]; [|done].
  simpl in Hs.
  apply Forall_cons in Hs as [Hy Hs].
  apply Forall_cons in Hs as [Hh Hs].
  apply Forall_cons in Hs as [Hc _].
  destruct (sh h w) as [[[]|] w1] eqn:E1; simpl.
  2:{ exact (Hh _ _ _ _ E1). }
  destruct (sy y w1) as [[[]|] w2] eqn:E2; simpl.
  2:{ rewrite (Hy _ _ _ _ E2). exact (Hh _ _ _ _ E1). }
  destruct (sc h w2) as [[[]|] w3] eqn:E3; simpl;
    rewrite (Hc _ _ _ _ E3), (Hy _ _ _ _ E2); exact (Hh _ _ _ _ E1).
Qed.

End Generic.

Section Properties.
Context {W Obj : Type}.
Implicit Types (env : Imports W Obj) (ns : Namespace W Obj) (w : W).

(** *** The descriptor query *)

(** C1: called with no arguments, in any state of the process, the descriptor
    query returns a sequence of exactly one record whose [module] field is
    the string [jupyterlab]; the answer does not depend on the state it is
    called in, so it is the same before and after any other operation; and
    any number of calls in a row give that same answer every time and leave
    the state as it was. *)
Theorem extension_paths_pure (n : nat) (w1 w2 : W) :
  (∃ d : descriptor,
      _jupyter_server_extension_paths w1 = (Ok [d], w1)
      ∧ d !! "module" = Some "jupyterlab") ∧
  (_jupyter_server_extension_paths w1).1
  = (_jupyter_server_extension_paths w2).1 ∧
  query_times n w1
  = (Ok (replicate n [ ({[ "module" := "jupyterlab" ]} : descriptor) ]), w1).
Proof.
  split; [|split].
  - eexists. split; [apply query_run|]. apply lookup_singleton_eq.
  - by rewrite !query_run.
  - apply query_times_run.
Qed.

(** C10: the one record the descriptor query returns has the key [module]
    and no other key. *)
Theorem descriptor_has_only_module (w : W) :
  ∃ d : descriptor,
    (_jupyter_server_extension_paths w).1 = Ok [d]
    ∧ dom d = {[ "module" ]}
    ∧ size d = 1
    ∧ ∀ k, k ≠ "module" → d !! k = None.
Proof.
  eexists. split; [by rewrite query_run|]. split; [|split].
  - apply dom_singleton_L.
  - apply map_size_singleton.
  - intros k Hk. by apply lookup_singleton_ne.
Qed.

(** *** Initialization *)

(** C2: when the module body has run to its end, what the general extension
    support and the core config hold as base path is the [HERE] that
    [jlpmapp] gave, and what is held as package-manager path is the
    [YARN_PATH] that [jlpmapp] gave. *)
Theorem init_registers_resolved_paths env reg w ns w' :
  module_init env w = (Ok ns, w') →
  honours ns reg →
  ∃ here yarn,
    import_HERE env = Ok here ∧ import_YARN_PATH env = Ok yarn
    ∧ registered_here reg w' = Some here
    ∧ registered_config_here reg w' = Some here
    ∧ registered_yarn_path reg w' = Some yarn.
Proof.
  intros Hrun Hreg.
  pose proof (module_init_registers _ _ _ _ _ Hrun Hreg) as [= Hh Hy Hc].
  apply module_init_Ok_inv in Hrun as (_ & _ & _ & _ & Ehere & Eyarn & _).
  by exists (HERE ns), (YARN_PATH ns).
Qed.

(** C3: when the import of [HERE] or of [YARN_PATH] from [jlpmapp] raises,
    the module body raises; the collaborators are in the state they were in,
    no setter has been called, and no namespace, hence no descriptor query,
    is handed to the importer. *)
Theorem unresolved_paths_fail_whole env w (l : list (call Obj)) :
  is_raise (import_HERE env) ∨ is_raise (import_YARN_PATH env) →
  ∃ e,
    module_init env w = (Raise e, w)
    ∧ module_init (recording env) (l, w) = (Raise e, (l, w))
    ∧ ∀ ns, (module_init env w).1 ≠ Ok ns.
Proof.
  intros Hfail.
  destruct (module_init_unresolved env w Hfail) as [e He].
  destruct (module_init_unresolved (recording env) (l, w) Hfail) as [e' He'].
  destruct (recording_faithful env l w) as [_ Hsame].
  rewrite He, He' in Hsame. injection Hsame as ->.
  exists e. split; [done|]. split; [done|].
  intros ns. by rewrite He.
Qed.

(** C5: running the module body again with the same imports leaves the three
    registered values as the first run left them. *)
Theorem reinit_same_values_idempotent env reg w ns1 w1 ns2 w2 :
  module_init env w = (Ok ns1, w1) →
  module_init env w1 = (Ok ns2, w2) →
  honours ns1 reg →
  registered reg w2 = registered reg w1.
Proof.
  intros Hrun1 Hrun2 Hreg.
  assert (Hns : ns2 = ns1).
  { apply module_init_Ok_inv in Hrun1 as (Ev & El & Ec & Ecc & Eh & Ey & Ep & _).
    apply module_init_Ok_inv in Hrun2
      as (Ev' & El' & Ec' & Ecc' & Eh' & Ey' & Ep' & _).
    destruct ns1, ns2; simpl in *. congruence. }
  subst ns2.
  rewrite (module_init_registers _ _ _ _ _ Hrun2 Hreg).
  by rewrite (module_init_registers _ _ _ _ _ Hrun1 Hreg).
Qed.

(** C6: when the module body runs twice, whatever the first run registered,
    after the second run the collaborators hold the [HERE] and [YARN_PATH] of
    the second run. *)
Theorem reinit_last_write_wins env1 env2 reg w ns1 w1 ns2 w2 :
  module_init env1 w = (Ok ns1, w1) →
  module_init env2 w1 = (Ok ns2, w2) →
  honours ns2 reg →
  ∃ here yarn,
    import_HERE env2 = Ok here ∧ import_YARN_PATH env2 = Ok yarn
    ∧ registered reg w2 = (Some here, Some yarn, Some here).
Proof.
  intros _ Hrun2 Hreg.
  exists (HERE ns2), (YARN_PATH ns2).
  pose proof (module_init_registers _ _ _ _ _ Hrun2 Hreg) as Hregs.
  apply module_init_Ok_inv in Hrun2 as (_ & _ & _ & _ & Ehere & Eyarn & _).
  done.
Qed.

(** C8: the loader and the version string found in the module after
    initialization are the objects that the imports from
    [jupyterlab_server.extension] and from [_version] gave. *)
Theorem reexports_unchanged env w ns w' :
  module_init env w = (Ok ns, w') →
  import_extension env = Ok (load_jupyter_server_extension ns)
  ∧ import_version env = Ok (__version__ ns).
Proof.
  intros Hrun.
  by apply module_init_Ok_inv in Hrun as (Ev & El & _).
Qed.

(** *** Boundary calls *)

(** C4: a run of the module body that returns has called [set_here] once,
    [set_yarn_path] once and [set_config_here] once; after it, the descriptor
    query, called directly or through the name bound in the module and any
    number of times, calls no setter and leaves the collaborators' state as
    it was. *)
Theorem registered_once_then_untouched env (l : list (call Obj)) w
    (ns : Namespace (list (call Obj) * W) Obj) l' w' :
  module_init (recording env) (l, w) = (Ok ns, (l', w')) →
  (∃ calls,
      l' = l ++ calls
      ∧ length (List.filter is_set_here calls) = 1
      ∧ length (List.filter is_set_yarn_path calls) = 1
      ∧ length (List.filter is_set_config_here calls) = 1) ∧
  (extension_paths ns (l', w')).2 = (l', w') ∧
  ∀ n, (query_times n (l', w')).2 = (l', w').
Proof.
  intros Hrun. split; [|split].
  - exists (boundary_calls env). split; [by eapply recording_run_Ok|].
    apply module_init_Ok_inv in Hrun as (_ & _ & _ & _ & Eh & Ey & _).
    unfold boundary_calls. simpl in Eh, Ey. by rewrite Eh, Ey.
  - apply module_init_Ok_inv in Hrun as (_ & _ & _ & _ & _ & _ & -> & _).
    by rewrite query_run.
  - intros n. by rewrite query_times_run.
Qed.

(** C7: whatever its outcome, the module body calls nothing at the boundary
    but [set_here(HERE)], [set_yarn_path(YARN_PATH)] and
    [set_config_here(HERE)], each at most once and in that order; whatever
    part of the collaborators' state those setters leave alone is after the
    body as it was before; and the descriptor query changes no state. *)
Theorem only_three_setter_calls env (l : list (call Obj)) w :
  (∃ calls,
      (module_init (recording env) (l, w)).2.1 = l ++ calls
      ∧ calls `prefix_of` boundary_calls env) ∧
  (module_init (recording env) (l, w)).2.2 = (module_init env w).2 ∧
  (∀ (X : Type) (obs : W → X),
      Forall (preserves obs) (setters_of env) →
      obs (module_init env w).2 = obs w) ∧
  ∀ n, (query_times n w).2 = w.
Proof.
  split; [apply recording_calls|].
  split; [apply recording_faithful|].
  split; [intros X obs; apply module_init_frame|].
  intros n. by rewrite query_times_run.
Qed.

(** C9: with every import resolved, the body calls [set_here(HERE)], then
    [set_yarn_path(YARN_PATH)], then [set_config_here(HERE)].  When a setter
    raises, the body raises that exception in the state that the setters
    called so far have produced: what they registered stays registered. *)
Theorem setters_called_in_order
    (v ld : Obj) (sy sh sc : Setter W Obj) (h y : Obj) w
    (l : list (call Obj)) :
  let env := Build_Imports W Obj (Ok v) (Ok ld) (Ok (sy, sh)) (Ok sc)
                           (Ok h) (Ok y) in
  (∀ (ns : Namespace (list (call Obj) * W) Obj) l' w',
      module_init (recording env) (l, w) = (Ok ns, (l', w')) →
      l' = l ++ [SetHere h; SetYarnPath y; SetConfigHere h]) ∧
  (∀ e w1, sh h w = (Raise e, w1) → module_init env w = (Raise e, w1)) ∧
  (∀ e w1 w2,
      sh h w = (Ok (), w1) → sy y w1 = (Raise e, w2) →
      module_init env w = (Raise e, w2)) ∧
  (∀ e w1 w2 w3,
      sh h w = (Ok (), w1) → sy y w1 = (Ok (), w2) →
      sc h w2 = (Raise e, w3) →
      module_init env w = (Raise e, w3)).
Proof.
  intros env. split; [|split; [|split]].
  - intros ns l' w' Hrun. by apply recording_run_Ok in Hrun.
  - intros e w1 E1. subst env. unfold_M. by rewrite E1.
  - intros e w1 w2 E1 E2. subst env. unfold_M. by rewrite E1, E2.
  - intros e w1 w2 w3 E1 E2 E3. subst env. unfold_M. by rewrite E1, E2, E3.
Qed.

End Properties.

(** *** The properties at the collaborators of [jupyterlab_server] *)

Section Instances.
Import jupyterlab_server scenario.

(** The setters of [jupyterlab_server] honour the contract. *)
Lemma globals_honour (ns : Namespace world pyobj) :
  set_here ns = commands.set_here →
  set_yarn_path ns = commands.set_yarn_path →
  set_config_here ns = coreconfig.set_here →
  honours ns registry.
Proof.
  destruct ns; simpl. intros -> -> ->.
  split; intros v w w' [= <-]; reflexivity.
Qed.

(** The setters of [jupyterlab_server] leave its other globals alone. *)
Lemma globals_preserve_elsewhere ver here yarn :
  Forall (preserves elsewhere) (setters_of (resolved ver here yarn)).
Proof.
  repeat constructor; intros v w r w' [= _ <-]; reflexivity.
Qed.

(** The spec's example, run. *)
Lemma installed_run :
  module_init installed unconfigured = (Ok installed_namespace, configured).
Proof. reflexivity. Qed.

(** The example of the spec: both base paths and the package-manager path
    are the ones [jlpmapp] resolved. *)
Lemma init_registers_resolved_paths_witness :
  ∃ here yarn,
    import_HERE installed = Ok here ∧ import_YARN_PATH installed = Ok yarn
    ∧ commands_HERE configured = Some here
    ∧ coreconfig_HERE configured = Some here
    ∧ commands_YARN_PATH configured = Some yarn.
Proof.
  apply (init_registers_resolved_paths installed registry unconfigured
           installed_namespace configured).
  - reflexivity.
  - apply globals_honour; reflexivity.
Defined.

(** [jlpmapp] raising: nothing registered, nothing called, nothing bound. *)
Lemma unresolved_paths_fail_whole_witness :
  ∃ e,
    module_init jlpmapp_fails unconfigured = (Raise e, unconfigured)
    ∧ module_init (recording jlpmapp_fails) ([], unconfigured)
      = (Raise e, ([], unconfigured))
    ∧ ∀ ns, (module_init jlpmapp_fails unconfigured).1 ≠ Ok ns.
Proof.
  apply (unresolved_paths_fail_whole jlpmapp_fails unconfigured []).
  left. simpl. exact I.
Defined.

(** The example run twice. *)
Lemma reinit_same_values_idempotent_witness :
  registered registry
    (module_init installed (module_init installed unconfigured).2).2
  = registered registry (module_init installed unconfigured).2.
Proof.
  eapply (reinit_same_values_idempotent installed registry unconfigured).
  - reflexivity.
  - reflexivity.
  - apply globals_honour; reflexivity.
Defined.

(** The example, then the relocated package: the relocated paths stay. *)
Lemma reinit_last_write_wins_witness :
  ∃ here yarn,
    import_HERE relocated = Ok here ∧ import_YARN_PATH relocated = Ok yarn
    ∧ registered registry
        (module_init relocated (module_init installed unconfigured).2).2
      = (Some here, Some yarn, Some here).
Proof.
  eapply (reinit_last_write_wins installed relocated registry unconfigured).
  - reflexivity.
  - reflexivity.
  - apply globals_honour; reflexivity.
Defined.

(** The loader and the version of the example. *)
Lemma reexports_unchanged_witness :
  import_extension installed
  = Ok (load_jupyter_server_extension installed_namespace)
  ∧ import_version installed = Ok (__version__ installed_namespace).
Proof.
  apply (reexports_unchanged installed unconfigured installed_namespace
           configured).
  reflexivity.
Defined.

(** The three calls of the example, and the query after them. *)
Lemma registered_once_then_untouched_witness :
  (∃ calls,
      installed_calls = [] ++ calls
      ∧ length (List.filter is_set_here calls) = 1
      ∧ length (List.filter is_set_yarn_path calls) = 1
      ∧ length (List.filter is_set_config_here calls) = 1) ∧
  (extension_paths installed_recorded_namespace
     (installed_calls, configured)).2 = (installed_calls, configured) ∧
  ∀ n, (query_times n (installed_calls, configured)).2
       = (installed_calls, configured).
Proof.
  apply (registered_once_then_untouched installed [] unconfigured
           installed_recorded_namespace installed_calls configured).
  reflexivity.
Defined.

(** The other globals of [jupyterlab_server] across the example run. *)
Lemma only_three_setter_calls_witness :
  elsewhere (module_init installed unconfigured).2 = elsewhere unconfigured.
Proof.
  destruct (only_three_setter_calls installed [] unconfigured)
    as (_ & _ & Hframe & _).
  apply Hframe. apply globals_preserve_elsewhere.
Defined.

(** A core-config setter that raises: the two registrations made before it
    are in the state the exception leaves. *)
Lemma setters_called_in_order_witness :
  module_init core_config_refuses unconfigured
  = (Raise (PyExc "ValueError" "rejected"), half_configured).
Proof.
  destruct (setters_called_in_order
              (Str "1.0.0a1") extension.load_jupyter_server_extension
              commands.set_yarn_path commands.set_here refusing_set_here
              (Str "/opt/app/share/pkg") (Str "/opt/app/bin/pkgmgr")
              unconfigured []) as (_ & _ & _ & Hthird).
  apply (Hthird _ (World (Some (Str "/opt/app/share/pkg")) None None ∅)
           half_configured); reflexivity.
Defined.

End Instances.

(** *** Further properties of the module body *)

Section Body.
Context {W Obj : Type}.
Implicit Types (env : Imports W Obj) (ns : Namespace W Obj) (w : W).

(** An import that raises ends the body before any setter is called. *)
Lemma imports_fail_fast_aux env w (l : list (call Obj)) e :
  first_import_failure env = Some e →
  module_init env w = (Raise e, w)
  ∧ module_init (recording env) (l, w) = (Raise e, (l, w)).
Proof.
  destruct env as [v ld c cc h y];
    unfold first_import_failure, recording; unfold_M.
  destruct v; [|by intros [= ->]].
  destruct ld; [|by intros [= ->]].
  destruct c as [[sy sh]|]; simpl; [|by intros [= ->]].
  destruct cc; simpl; [|by intros [= ->]].
  destruct h; [|by intros [= ->]].
  destruct y; [|by intros [= ->]].
  discriminate.
Qed.

(** X1: when any of the six import statements raises, the body raises the
    exception of the first of them in source order, with the collaborators
    in the state they were in and no setter called. *)
Theorem imports_fail_fast env w (l : list (call Obj)) e :
  first_import_failure env = Some e →
  module_init env w = (Raise e, w)
  ∧ module_init (recording env) (l, w) = (Raise e, (l, w)).
Proof.
  intros Hfail. split.
  - by destruct (imports_fail_fast_aux env w l e Hfail).
  - by destruct (imports_fail_fast_aux env w l e Hfail).
Qed.

(** X2: the body returns a namespace exactly when all six imports resolve
    and the three setter calls return one after the other; the namespace
    then binds each name to the object its import gave, and the final state
    is the one the third setter leaves. *)
Theorem module_init_returns_iff env w ns w' :
  module_init env w = (Ok ns, w') ↔
  import_version env = Ok (__version__ ns) ∧
  import_extension env = Ok (load_jupyter_server_extension ns) ∧
  import_commands env = Ok (set_yarn_path ns, set_here ns) ∧
  import_coreconfig env = Ok (set_config_here ns) ∧
  import_HERE env = Ok (HERE ns) ∧
  import_YARN_PATH env = Ok (YARN_PATH ns) ∧
  extension_paths ns = _jupyter_server_extension_paths ∧
  ∃ w1 w2,
    set_here ns (HERE ns) w = (Ok (), w1) ∧
    set_yarn_path ns (YARN_PATH ns) w1 = (Ok (), w2) ∧
    set_config_here ns (HERE ns) w2 = (Ok (), w').
Proof.
  split; [apply module_init_Ok_inv|].
  intros (Ev & El & Ec & Ecc & Eh & Ey & Ep & w1 & w2 & E1 & E2 & E3).
  destruct env as [v ld c cc h y], ns as [nv nl nsy nsh nsc nh ny np].
  simpl in *; subst. unfold_M. by rewrite E1, E2, E3.
Qed.

(** X3: the body raises nothing of its own: an exception that leaves it is
    the one of the first failing import, and then the state is untouched, or
    it is the one raised by the call of [set_here], [set_yarn_path] or
    [set_config_here] that the body made, and then the state is the one that
    call left. *)
Theorem module_init_raise_cause env w e w' :
  module_init env w = (Raise e, w') →
  (first_import_failure env = Some e ∧ w' = w) ∨
  ∃ sy sh sc h y,
    import_commands env = Ok (sy, sh) ∧ import_coreconfig env = Ok sc ∧
    import_HERE env = Ok h ∧ import_YARN_PATH env = Ok y ∧
    (sh h w = (Raise e, w') ∨
     ∃ w1, sh h w = (Ok (), w1) ∧
       (sy y w1 = (Raise e, w') ∨
        ∃ w2, sy y w1 = (Ok (), w2) ∧ sc h w2 = (Raise e, w'))).
Proof.
  destruct env as [v ld c cc h y]; unfold first_import_failure; unfold_M.
  destruct v; [|intros [= -> ->]; by left].
  destruct ld; [|intros [= -> ->]; by left].
  destruct c as [[sy sh]|]; [|intros [= -> ->]; by left].
  destruct cc as [sc|]; [|intros [= -> ->]; by left].
  destruct h as [h|]; [|intros [= -> ->]; by left].
  destruct y as [y|]; [|intros [= -> ->]; by left].
  intros Hrun. right. exists sy, sh, sc, h, y. repeat (split; [done|]).
  destruct (sh h w) as [[[]|e1] w1]; [|left; congruence].
  right. exists w1. split; [done|].
  destruct (sy y w1) as [[[]|e2] w2]; [|left; congruence].
  right. exists w2. split; [done|].
  destruct (sc h w2) as [[[]|e3] w3]; [discriminate|congruence].
Qed.

(** X4: a setter that raises ends the body: with every import resolved, the
    calls made are [set_here(HERE)] alone when it raises; [set_here(HERE)]
    and [set_yarn_path(YARN_PATH)] when the second raises, so that
    [set_config_here] is not called; and all three when the third raises. *)
Theorem raising_setter_stops_body
    (v ld : Obj) (sy sh sc : Setter W Obj) (h y : Obj) w
    (l : list (call Obj)) :
  let env := Build_Imports W Obj (Ok v) (Ok ld) (Ok (sy, sh)) (Ok sc)
                           (Ok h) (Ok y) in
  (∀ e w1,
      sh h w = (Raise e, w1) →
      module_init (recording env) (l, w)
      = (Raise e, (l ++ [SetHere h], w1))) ∧
  (∀ e w1 w2,
      sh h w = (Ok (), w1) → sy y w1 = (Raise e, w2) →
      module_init (recording env) (l, w)
      = (Raise e, (l ++ [SetHere h; SetYarnPath y], w2))) ∧
  (∀ e w1 w2 w3,
      sh h w = (Ok (), w1) → sy y w1 = (Ok (), w2) →
      sc h w2 = (Raise e, w3) →
      module_init (recording env) (l, w)
      = (Raise e, (l ++ [SetHere h; SetYarnPath y; SetConfigHere h], w3))).
Proof.
  intros env. subst env. unfold recording, recorded. unfold_M.
  split; [|split].
  - intros e w1 E1. by rewrite E1.
  - intros e w1 w2 E1 E2. rewrite E1; simpl. rewrite E2; simpl.
    by rewrite <- app_assoc.
  - intros e w1 w2 w3 E1 E2 E3. rewrite E1; simpl. rewrite E2; simpl.
    rewrite E3; simpl. by rewrite <- !app_assoc.
Qed.

(** X5: the collaborators are reached exactly when every import resolves:
    no import raises if and only if the body calls [set_here(HERE)], and
    that call is then the first one it makes, whatever the setters do. *)
Theorem setters_reached_iff_imports_resolve env w (l : list (call Obj)) :
  first_import_failure env = None ↔
  ∃ h rest,
    import_HERE env = Ok h
    ∧ (module_init (recording env) (l, w)).2.1 = l ++ SetHere h :: rest.
Proof.
  split.
  - destruct env as [v ld c cc h y];
      unfold first_import_failure, recording, recorded; unfold_M.
    destruct v; [|discriminate]. destruct ld; [|discriminate].
    destruct c as [[sy sh]|]; simpl; [|discriminate].
    destruct cc as [sc|]; simpl; [|discriminate].
    destruct h as [h|]; [|discriminate]. destruct y as [y|]; [|discriminate].
    intros _. exists h.
    destruct (sh h w) as [[[]|] w1]; simpl; [|by eexists].
    destruct (sy y w1) as [[[]|] w2]; simpl;
      [|eexists; split; [done|]; by rewrite <- app_assoc].
    destruct (sc h w2) as [[[]|] w3]; simpl;
      (eexists; split; [done|]; by rewrite <- !app_assoc).
  - intros (h & rest & _ & Hlog).
    destruct (first_import_failure env) as [e|] eqn:Hfail; [|done].
    destruct (imports_fail_fast_aux env w l e Hfail) as [_ Hrec].
    rewrite Hrec in Hlog; simpl in Hlog.
    apply (f_equal length) in Hlog. rewrite length_app in Hlog.
    simpl in Hlog. lia.
Qed.

End Body.

Section BodyInstances.
Import jupyterlab_server scenario.

(** [_version] and [jlpmapp] both failing: the host sees the [ImportError]
    of [_version], the first in source order. *)
Lemma imports_fail_fast_witness :
  module_init version_and_jlpmapp_fail unconfigured
  = (Raise (PyExc "ImportError" "cannot import name __version__"),
     unconfigured)
  ∧ module_init (recording version_and_jlpmapp_fail) ([], unconfigured)
    = (Raise (PyExc "ImportError" "cannot import name __version__"),
       ([], unconfigured)).
Proof.
  apply (imports_fail_fast version_and_jlpmapp_fail unconfigured []).
  reflexivity.
Defined.

(** The example of the spec returns, by the right-to-left direction. *)
Lemma module_init_returns_iff_witness :
  module_init installed unconfigured = (Ok installed_namespace, configured).
Proof.
  apply (module_init_returns_iff installed unconfigured installed_namespace
           configured).
  repeat (split; [reflexivity|]).
  exists here_configured,
    (World (Some (Str "/opt/app/share/pkg"))
           (Some (Str "/opt/app/bin/pkgmgr")) None ∅).
  repeat split.
Defined.

(** The refusing package-manager setter is the cause found. *)
Lemma module_init_raise_cause_witness :
  (first_import_failure yarn_path_refuses
   = Some (PyExc "ValueError" "not an executable")
   ∧ here_configured = unconfigured) ∨
  ∃ sy sh sc h y,
    import_commands yarn_path_refuses = Ok (sy, sh) ∧
    import_coreconfig yarn_path_refuses = Ok sc ∧
    import_HERE yarn_path_refuses = Ok h ∧
    import_YARN_PATH yarn_path_refuses = Ok y ∧
    (sh h unconfigured
     = (Raise (PyExc "ValueError" "not an executable"), here_configured) ∨
     ∃ w1, sh h unconfigured = (Ok (), w1) ∧
       (sy y w1
        = (Raise (PyExc "ValueError" "not an executable"), here_configured) ∨
        ∃ w2, sy y w1 = (Ok (), w2) ∧
          sc h w2
          = (Raise (PyExc "ValueError" "not an executable"),
             here_configured))).
Proof.
  apply (module_init_raise_cause yarn_path_refuses unconfigured).
  reflexivity.
Defined.

(** The package-manager setter raising: [set_config_here] is not called. *)
Lemma raising_setter_stops_body_witness :
  module_init (recording yarn_path_refuses) ([], unconfigured)
  = (Raise (PyExc "ValueError" "not an executable"),
     ([SetHere (Str "/opt/app/share/pkg");
       SetYarnPath (Str "/opt/app/bin/pkgmgr")], here_configured)).
Proof.
  destruct (raising_setter_stops_body
              (Str "1.0.0a1") extension.load_jupyter_server_extension
              refusing_set_yarn_path commands.set_here coreconfig.set_here
              (Str "/opt/app/share/pkg") (Str "/opt/app/bin/pkgmgr")
              unconfigured []) as (_ & Hsecond & _).
  apply (Hsecond _ here_configured here_configured); reflexivity.
Defined.

(** Every import of the example resolves, and [set_here] is called first. *)
Lemma setters_reached_iff_imports_resolve_witness :
  ∃ h rest,
    import_HERE installed = Ok h
    ∧ (module_init (recording installed) ([], unconfigured)).2.1
      = [] ++ SetHere h :: rest.
Proof.
  apply (setters_reached_iff_imports_resolve installed unconfigured []).
  reflexivity.
Defined.

End BodyInstances.
End facts.
